(** * clean_project.py: confirmation-gated deletion of a fixed list of paths

    A shallow embedding of the script [clean_project.py].  The script is a
    straight line of console and filesystem calls, so it is embedded in a
    small state-and-exception monad over a [world] that holds the
    filesystem, the console streams and a log of the filesystem calls made.

    Python [str] values are sequences of Unicode code points and are modelled
    as [list N]; the filesystem is a finite map from path strings to the
    object found there.

    The environment is modelled as follows.  A path string names one
    filesystem object, and nothing but the script changes the filesystem
    while it runs.  [os.remove] either unlinks the object at its path and
    nothing else, or raises an [OSError] and changes nothing.  Writing to
    standard output does not fail.  Signals are left out. *)

From Stdlib Require Import String Ascii NArith ZArith List.
From stdpp Require Import gmap list fin_maps.
Import ListNotations.

(** ** Python strings *)

(** A [str] is a list of code points. *)
Abbreviation str := (list N).

(** A literal of the script, whose characters are all below U+0100. *)
Definition py (s : string) : str := map N_of_ascii (list_ascii_of_string s).
Arguments py : simpl never.

Module Str.

(** [Py_UNICODE_ISSPACE]: the code points [str.strip()] removes when it is
    called without argument (9-13, 28-32, U+0085, U+00A0, U+1680,
    U+2000-U+200A, U+2028, U+2029, U+202F, U+205F, U+3000). *)
Definition isspace (c : N) : bool :=
  ((9 <=? c) && (c <=? 13) || (28 <=? c) && (c <=? 32)
   || (c =? 133) || (c =? 160) || (c =? 5760)
   || (8192 <=? c) && (c <=? 8202)
   || (c =? 8232) || (c =? 8233) || (c =? 8239) || (c =? 8287)
   || (c =? 12288))%N.

(** [s.lstrip()]: drop the leading run of whitespace. *)
Fixpoint lstrip (s : str) : str :=
  match s with
  | [] => []
  | c :: s' => if isspace c then lstrip s' else s
  end.

(** [s.rstrip()]: drop the trailing run of whitespace. *)
Definition rstrip (s : str) : str := rev (lstrip (rev s)).

(** [s.strip()]: the slice between the first and the last character that
    is not whitespace. *)
Definition strip (s : str) : str := rstrip (lstrip s).

End Str.

(** ** Exceptions *)

(** The ordinary exceptions, the ones an [except Exception] clause catches.
    [OSError] stands for the whole family raised by [os.remove]
    ([PermissionError], [IsADirectoryError], [FileNotFoundError], ...) and
    carries the text [str(e)]. *)
Inductive Exception : Type :=
  | OSError (msg : str)
  | EOFError.

(** Everything that can be raised: [SystemExit] derives from
    [BaseException] only, so [except Exception] lets it through. *)
Inductive BaseException : Type :=
  | Exc (e : Exception)
  | SystemExit (code : Z).

(** [str(e)], the text an f-string inserts for [{e}]. *)
Definition str_of (e : Exception) : str :=
  match e with
  | OSError msg => msg
  | EOFError => py "EOF when reading a line"
  end.

(** ** The world the script runs in *)

(** What the filesystem holds at a path, as far as [os.remove] can tell:
    an object that can be unlinked, or one whose removal the system refuses
    (a directory, a file without permission, a locked file, a failing
    device) together with the error it answers. *)
Inductive node : Type :=
  | Removable
  | Refused (e : Exception).

(** What the script writes on standard output: [print(s)] writes the line
    [s]; [input(prompt)] writes [prompt] with no newline. *)
Inductive output : Type :=
  | Line (s : str)
  | Prompt (s : str).

(** The filesystem calls of the script. *)
Inductive fscall : Type :=
  | Exists (p : str)
  | Remove (p : str).

Record world : Type := World {
  fs : gmap (list N) node;      (* the filesystem *)
  stdin : list str;             (* the lines still to be read *)
  stdout : list output;         (* what was written, oldest first *)
  calls : list fscall           (* filesystem calls made, oldest first *)
}.

Definition set_fs (f : gmap (list N) node) (w : world) : world :=
  World f (stdin w) (stdout w) (calls w).
Definition set_stdin (i : list str) (w : world) : world :=
  World (fs w) i (stdout w) (calls w).
Definition emit (o : output) (w : world) : world :=
  World (fs w) (stdin w) (stdout w ++ [o]) (calls w).
Definition log (c : fscall) (w : world) : world :=
  World (fs w) (stdin w) (stdout w) (calls w ++ [c]).

(** The world at process start. *)
Definition boot (f : gmap (list N) node) (i : list str) : world :=
  World f i [] [].

(** ** The monad: state and exceptions *)

Definition M (A : Type) : Type := world -> (A + BaseException) * world.

Definition ret {A} (a : A) : M A := fun w => (inl a, w).

Definition bind {A B} (m : M A) (k : A -> M B) : M B :=
  fun w =>
    match m w with
    | (inl a, w') => k a w'
    | (inr e, w') => (inr e, w')
    end.

Definition raise {A} (e : BaseException) : M A := fun w => (inr e, w).

Declare Scope py_scope.
Delimit Scope py_scope with py.
Notation "x <- m ;; k" := (bind m (fun x => k))
  (at level 100, m at next level, right associativity) : py_scope.
Notation "m ;; k" := (bind m (fun _ => k))
  (at level 100, right associativity) : py_scope.

(** [try: body  except Exception as e: handler e]. *)
Definition try_except {A} (body : M A) (handler : Exception -> M A) : M A :=
  fun w =>
    match body w with
    | (inr (Exc e), w') => handler e w'
    | r => r
    end.

(** [for x in xs: body x]. *)
Fixpoint for_each {A} (xs : list A) (body : A -> M unit) : M unit :=
  match xs with
  | [] => ret tt
  | x :: xs' => (body x ;; for_each xs' body)%py
  end.

(** ** Builtins and [os] *)

(** [print(s)]. *)
Definition print (s : str) : M unit := fun w => (inl tt, emit (Line s) w).

(** [input(prompt)]: write the prompt, then read one line; [EOFError] when
    standard input is exhausted. *)
Definition input (prompt : str) : M str :=
  fun w =>
    let w' := emit (Prompt prompt) w in
    match stdin w' with
    | [] => (inr (Exc EOFError), w')
    | l :: rest => (inl l, set_stdin rest w')
    end.

(** [exit(code)]. *)
Definition exit {A} (code : Z) : M A := raise (SystemExit code).

Module os.

(** [os.path.exists(p)]. *)
Definition path_exists (p : str) : M bool :=
  fun w =>
    (inl (match fs w !! p with Some _ => true | None => false end),
     log (Exists p) w).

(** [os.remove(p)]: unlink the object at [p], or raise the error the
    system answers; [FileNotFoundError] when nothing is there (Python adds
    the quoted path to that text). *)
Definition remove (p : str) : M unit :=
  fun w =>
    let w' := log (Remove p) w in
    match fs w !! p with
    | Some Removable => (inl tt, set_fs (delete p (fs w)) w')
    | Some (Refused e) => (inr (Exc e), w')
    | None => (inr (Exc (OSError (py "[Errno 2] No such file or directory"))), w')
    end.

End os.

(** ** The script *)

(** [a != b] on strings. *)
Definition str_ne (a b : str) : bool := negb (bool_decide (a = b)).

(** The module-level list of the script (raw string literals: a backslash
    stands for itself). *)
Definition files_to_delete : list str :=
  [ py "c:\Users\chrom\Videos\blueprint  stable\blueprint  stable complete back up\pubspec.yaml";
    py "c:\Users\chrom\Videos\blueprint  stable\blueprint  stable complete back up\analysis_options.yaml";
    py "c:\Users\chrom\Videos\blueprint  stable\blueprint  stable complete back up\README.md" ].

(** The body of the second loop, for one path [f]. *)
Definition delete_one (f : str) : M unit :=
  try_except
    (found <- os.path_exists f ;;
     if found
     then (os.remove f ;; print (py "Deleted: " ++ f))
     else print (py "Skipped (not found): " ++ f))%py
    (fun e => print (py "Failed to delete " ++ f ++ py ": " ++ str_of e)).

(** The second loop. *)
Definition deletion_loop (files : list str) : M unit :=
  for_each files delete_one.

(** The whole script, over the list it was written for. *)
Definition script (files : list str) : M unit :=
  (print (py "Files marked for deletion:") ;;
   for_each files print ;;
   confirm <- input (py "Type DELETE to confirm deletion: ") ;;
   (if str_ne (Str.strip confirm) (py "DELETE")
    then (print (py "Aborted by user.") ;; exit 1)
    else ret tt) ;;
   deletion_loop files)%py.

Definition main : M unit := script files_to_delete.

(** The exit status of the interpreter: 0 when the script runs to its end,
    the argument of [exit], and 1 after an uncaught exception (whose
    traceback goes to standard error). *)
Definition exit_status (r : unit + BaseException) : Z :=
  match r with
  | inl _ => 0
  | inr (SystemExit code) => code
  | inr (Exc _) => 1
  end%Z.

(** One run of the process: the result of the script and the final world. *)
Definition run (files : list str) (f : gmap (list N) node) (i : list str)
  : (unit + BaseException) * world :=
  script files (boot f i).

(** * The behaviour the specification describes

    The definitions of this part follow the wording of the specification;
    the properties below compare the script with them. *)

(** ** Whitespace *)

(** A run of whitespace. *)
Definition blank (l : str) : Prop := Forall (fun c => Str.isspace c = true) l.

(** A string with no whitespace at either end. *)
Definition trimmed (t : str) : Prop := Str.lstrip t = t /\ Str.lstrip (rev t) = rev t.

(** ** Outcomes of the deletion phase *)

(** The three per-path outcomes of the deletion phase. *)
Inductive outcome : Type :=
  | Deleted (p : str)
  | Skipped (p : str)
  | Failed (p : str) (reason : str).

(** The path an outcome is about. *)
Definition target (o : outcome) : str :=
  match o with Deleted p | Skipped p | Failed p _ => p end.

(** The line that reports an outcome. *)
Definition report (o : outcome) : str :=
  match o with
  | Deleted p => py "Deleted: " ++ p
  | Skipped p => py "Skipped (not found): " ++ p
  | Failed p reason => py "Failed to delete " ++ p ++ py ": " ++ reason
  end.

(** The outcome dictated by what the filesystem holds at [p]. *)
Definition verdict (n : option node) (p : str) : outcome :=
  match n with
  | None => Skipped p
  | Some Removable => Deleted p
  | Some (Refused e) => Failed p (str_of e)
  end.

(** What an outcome does to the filesystem. *)
Definition effect (o : outcome) (f : gmap (list N) node) : gmap (list N) node :=
  match o with
  | Deleted p => delete p f
  | Skipped _ | Failed _ _ => f
  end.

(** The filesystem calls behind an outcome: one existence check, and one
    removal attempt when the path exists. *)
Definition syscalls (o : outcome) : list fscall :=
  match o with
  | Skipped p => [Exists p]
  | Deleted p | Failed p _ => [Exists p; Remove p]
  end.

(** The outcomes of visiting the paths one after the other, each judged on
    the filesystem its predecessors left. *)
Fixpoint outcomes (files : list str) (f : gmap (list N) node) : list outcome :=
  match files with
  | [] => []
  | p :: ps => let o := verdict (f !! p) p in o :: outcomes ps (effect o f)
  end.

(** The filesystem after all the visits. *)
Fixpoint swept (files : list str) (f : gmap (list N) node) : gmap (list N) node :=
  match files with
  | [] => f
  | p :: ps => swept ps (effect (verdict (f !! p) p) f)
  end.

(** The same as a relation: [visits f files outs f'] when visiting [files]
    in order from filesystem [f] yields [outs] and leaves [f']. *)
Inductive visits : gmap (list N) node -> list str -> list outcome ->
                   gmap (list N) node -> Prop :=
  | visits_nil f : visits f [] [] f
  | visits_cons f p ps o outs f' :
      o = verdict (f !! p) p ->
      visits (effect o f) ps outs f' ->
      visits f (p :: ps) (o :: outs) f'.

(** What every run writes first: the header, the paths, the prompt. *)
Definition listing (files : list str) : list output :=
  Line (py "Files marked for deletion:") :: map Line files
  ++ [Prompt (py "Type DELETE to confirm deletion: ")].

(** The three forms of report line. *)
Definition report_form (p : str) (o : output) : Prop :=
  o = Line (py "Deleted: " ++ p) \/
  o = Line (py "Skipped (not found): " ++ p) \/
  exists reason, o = Line (py "Failed to delete " ++ p ++ py ": " ++ reason).

(** ** A sample filesystem *)

Definition demo_files : list str :=
  [py "/tmp/a.txt"; py "/tmp/b.txt"; py "/tmp/c.txt"].

Definition demo_denied : Exception :=
  OSError (py "[Errno 13] Permission denied: '/tmp/c.txt'").

Definition demo_fs : gmap (list N) node :=
  <[py "/tmp/a.txt" := Removable]> (<[py "/tmp/c.txt" := Refused demo_denied]> ∅).

(** * Properties *)

(** ** Stripping *)

Example strip_padded : Str.strip (py "  DELETE  ") = py "DELETE".
Proof. reflexivity. Qed.

Example strip_inner_kept : Str.strip (py " a b ") = py "a b".
Proof. reflexivity. Qed.

Section Strip.

Import Str.

Lemma lstrip_blank l s : blank l -> lstrip (l ++ s) = lstrip s.
Proof.
  induction 1 as [|c l Hc _ IH]; simpl; [reflexivity|].
  now rewrite Hc.
Qed.

Lemma lstrip_split s : exists l, s = l ++ lstrip s /\ blank l.
Proof.
  induction s as [|c s [l [Hs Hl]]]; simpl.
  - exists []. split; [reflexivity | constructor].
  - destruct (isspace c) eqn:Hc.
    + exists (c :: l). split; [simpl; congruence | now constructor].
    + exists []. split; [reflexivity | constructor].
Qed.

Lemma lstrip_fixed_app t r : t <> [] -> lstrip t = t -> lstrip (t ++ r) = t ++ r.
Proof.
  destruct t as [|c t]; [congruence|]. simpl. intros _.
  destruct (isspace c) eqn:Hc; [|reflexivity].
  intros Ht. exfalso.
  destruct (lstrip_split t) as [l [Hl _]].
  apply (f_equal (@length N)) in Ht. apply (f_equal (@length N)) in Hl.
  rewrite length_app in Hl. simpl in Ht. lia.
Qed.

Lemma blank_rev l : blank l -> blank (rev l).
Proof. apply List.Forall_rev. Qed.

Lemma lstrip_all_blank l : blank l -> lstrip l = [].
Proof. intros H. rewrite <- (app_nil_r l). now rewrite lstrip_blank. Qed.

(** Padding a trimmed string with whitespace is undone by [strip]. *)
Lemma strip_pad l t r : blank l -> blank r -> trimmed t -> strip (l ++ t ++ r) = t.
Proof.
  intros Hl Hr [Ht Ht']. unfold strip, rstrip.
  rewrite lstrip_blank by assumption.
  destruct t as [|c t].
  - simpl. rewrite (lstrip_all_blank r) by assumption. reflexivity.
  - rewrite lstrip_fixed_app by (assumption || discriminate).
    rewrite rev_app_distr, lstrip_blank by now apply blank_rev.
    rewrite Ht'. apply rev_involutive.
Qed.

(** Every string is its stripped core between two runs of whitespace. *)
Lemma strip_split s : exists l r, s = l ++ strip s ++ r /\ blank l /\ blank r.
Proof.
  destruct (lstrip_split s) as [l [Hs Hl]].
  destruct (lstrip_split (rev (lstrip s))) as [r [Hu Hr]].
  exists l, (rev r). split; [|split; [assumption | now apply blank_rev]].
  unfold strip, rstrip. rewrite <- rev_app_distr, <- Hu, rev_involutive.
  exact Hs.
Qed.

Lemma trimmed_DELETE : trimmed (py "DELETE").
Proof. split; reflexivity. Qed.

(** The input lines that [strip] maps to the token. *)
Lemma strip_DELETE_iff s :
  strip s = py "DELETE" <->
  exists l r, s = l ++ py "DELETE" ++ r /\ blank l /\ blank r.
Proof.
  split.
  - intros H. destruct (strip_split s) as [l [r Hs]]. rewrite H in Hs. eauto.
  - intros [l [r [-> [Hl Hr]]]]. apply strip_pad; auto using trimmed_DELETE.
Qed.

End Strip.

Lemma str_ne_false a b : str_ne a b = false <-> a = b.
Proof.
  unfold str_ne. rewrite negb_false_iff, bool_decide_eq_true. reflexivity.
Qed.

Lemma str_ne_true a b : str_ne a b = true <-> a <> b.
Proof.
  unfold str_ne. rewrite negb_true_iff, bool_decide_eq_false. reflexivity.
Qed.

(** ** One step and the loops *)

Lemma delete_one_eq p w :
  delete_one p w =
  (inl tt,
   let o := verdict (fs w !! p) p in
   World (effect o (fs w)) (stdin w) (stdout w ++ [Line (report o)])
         (calls w ++ syscalls o)).
Proof.
  unfold delete_one, try_except, bind, os.path_exists, os.remove, print,
    emit, log, set_fs.
  destruct (fs w !! p) as [[|e]|] eqn:E;
    cbn [fs stdin stdout calls]; rewrite ?E;
    cbn [verdict effect report syscalls fs stdin stdout calls];
    rewrite <- ?app_assoc; reflexivity.
Qed.

Lemma deletion_loop_eq files : forall w,
  deletion_loop files w =
  (inl tt,
   World (swept files (fs w)) (stdin w)
         (stdout w ++ map (fun o => Line (report o)) (outcomes files (fs w)))
         (calls w ++ flat_map syscalls (outcomes files (fs w)))).
Proof.
  unfold deletion_loop.
  induction files as [|p ps IH]; intros w.
  - simpl. unfold ret. rewrite !app_nil_r. now destruct w.
  - simpl. unfold bind. rewrite delete_one_eq. rewrite IH. simpl.
    rewrite <- !app_assoc. reflexivity.
Qed.

Lemma for_each_print files : forall w,
  for_each files print w =
  (inl tt, World (fs w) (stdin w) (stdout w ++ map Line files) (calls w)).
Proof.
  induction files as [|p ps IH]; intros w; simpl.
  - unfold ret. rewrite app_nil_r. now destruct w.
  - unfold bind, print at 1. rewrite IH. simpl. rewrite <- app_assoc. reflexivity.
Qed.

(** ** The three kinds of run *)

Lemma run_eof files f :
  run files f [] = (inr (Exc EOFError), World f [] (listing files) []).
Proof.
  unfold run, script, bind. unfold print at 1. rewrite for_each_print.
  reflexivity.
Qed.

Lemma run_aborted files f line rest :
  Str.strip line <> py "DELETE" ->
  run files f (line :: rest) =
  (inr (SystemExit 1),
   World f rest (listing files ++ [Line (py "Aborted by user.")]) []).
Proof.
  intros H. apply str_ne_true in H.
  unfold run, script, bind. unfold print at 1. rewrite for_each_print.
  simpl. rewrite H. reflexivity.
Qed.

Lemma run_confirmed files f line rest :
  Str.strip line = py "DELETE" ->
  run files f (line :: rest) =
  (inl tt,
   World (swept files f) rest
         (listing files ++ map (fun o => Line (report o)) (outcomes files f))
         (flat_map syscalls (outcomes files f))).
Proof.
  intros H. apply str_ne_false in H.
  unfold run, script, bind. unfold print at 1. rewrite for_each_print.
  simpl. rewrite H. unfold ret. rewrite deletion_loop_eq. reflexivity.
Qed.

(** ** The visits *)

Lemma outcomes_target files : forall f, map target (outcomes files f) = files.
Proof.
  induction files as [|p ps IH]; intros f; simpl; [reflexivity|].
  rewrite IH. f_equal. now destruct (f !! p) as [[|e]|].
Qed.

Lemma outcomes_length files f : length (outcomes files f) = length files.
Proof. now rewrite <- (outcomes_target files f) at 2; rewrite length_map. Qed.

Lemma visits_outcomes files : forall f, visits f files (outcomes files f) (swept files f).
Proof.
  induction files as [|p ps IH]; intros f; simpl.
  - constructor.
  - now constructor.
Qed.

Lemma visits_functional f files outs f' :
  visits f files outs f' -> outs = outcomes files f /\ f' = swept files f.
Proof.
  induction 1 as [f|f p ps o outs f' Ho _ [IHo IHf]]; simpl.
  - now split.
  - subst o. split; [now f_equal | assumption].
Qed.

Lemma effect_subseteq (o : outcome) (f : gmap (list N) node) : effect o f ⊆ f.
Proof. destruct o; simpl; [apply delete_subseteq | reflexivity | reflexivity]. Qed.

Lemma effect_other (o : outcome) (f : gmap (list N) node) (q : str) :
  q <> target o -> effect o f !! q = f !! q.
Proof. destruct o; simpl; intros Hq; [now apply lookup_delete_ne | reflexivity | reflexivity]. Qed.

Lemma target_verdict (n : option node) (p : str) : target (verdict n p) = p.
Proof. now destruct n as [[|e]|]. Qed.

Lemma swept_subseteq (files : list str) : forall f : gmap (list N) node, swept files f ⊆ f.
Proof.
  induction files as [|p ps IH]; intros f; simpl; [reflexivity|].
  etransitivity; [apply IH | apply effect_subseteq].
Qed.

Lemma swept_other (files : list str) (q : str) : forall f : gmap (list N) node, q ∉ files -> swept files f !! q = f !! q.
Proof.
  induction files as [|p ps IH]; intros f Hq; simpl; [reflexivity|].
  apply not_elem_of_cons in Hq as [Hqp Hq].
  rewrite IH by assumption. apply effect_other. now rewrite target_verdict.
Qed.

Lemma syscalls_target (o : outcome) (c : fscall) :
  c ∈ syscalls o -> c = Exists (target o) \/ c = Remove (target o).
Proof.
  destruct o; simpl; rewrite ?elem_of_cons, ?elem_of_nil; tauto.
Qed.

Lemma calls_listed (files : list str) (c : fscall) : forall f : gmap (list N) node,
  c ∈ flat_map syscalls (outcomes files f) ->
  exists p, p ∈ files /\ (c = Exists p \/ c = Remove p).
Proof.
  induction files as [|p ps IH]; intros f; simpl.
  - now intros H%elem_of_nil.
  - rewrite elem_of_app. intros [H|H].
    + apply syscalls_target in H. rewrite target_verdict in H.
      exists p. split; [left | assumption].
    + destruct (IH _ H) as [q [Hq Hc]]. exists q. split; [now right | assumption].
Qed.

(** An outcome that is not a failure leaves nothing at its path. *)
Lemma effect_clears (f : gmap (list N) node) (p : str) :
  (forall reason, verdict (f !! p) p <> Failed p reason) ->
  effect (verdict (f !! p) p) f !! p = None.
Proof.
  destruct (f !! p) as [[|e]|] eqn:E; simpl; intros H.
  - apply lookup_delete_eq.
  - now destruct (H (str_of e)).
  - assumption.
Qed.

Lemma swept_clears (files : list str) : forall f : gmap (list N) node,
  Forall (fun o => forall reason, o <> Failed (target o) reason) (outcomes files f) ->
  forall p : str, p ∈ files -> swept files f !! p = None.
Proof.
  induction files as [|q qs IH]; intros f H p Hp; simpl in *.
  - now apply elem_of_nil in Hp.
  - apply Forall_cons in H as [Hq H].
    rewrite target_verdict in Hq.
    apply elem_of_cons in Hp as [->|Hp].
    + eapply lookup_weaken_None; [|apply swept_subseteq].
      now apply effect_clears.
    + now apply IH.
Qed.

(** On a filesystem that holds none of the paths, every visit is a skip. *)
Lemma outcomes_absent (files : list str) (f : gmap (list N) node) :
  (forall p : str, p ∈ files -> f !! p = None) ->
  outcomes files f = map Skipped files /\ swept files f = f.
Proof.
  induction files as [|q qs IH]; intros H; simpl; [now split|].
  rewrite (H q) by left. simpl.
  destruct IH as [IH1 IH2]; [intros p Hp; apply H; now right|].
  now rewrite IH1, IH2.
Qed.

Lemma report_forms files : forall f,
  Forall2 report_form files (map (fun o => Line (report o)) (outcomes files f)).
Proof.
  induction files as [|p ps IH]; intros f; simpl; constructor; [|apply IH].
  unfold report_form. destruct (f !! p) as [[|e]|]; simpl; eauto.
Qed.

(** Reports of different kinds are different lines. *)
Lemma report_kinds_apart p q r reason :
  report (Deleted p) <> report (Skipped q) /\
  report (Deleted p) <> report (Failed r reason) /\
  report (Skipped q) <> report (Failed r reason).
Proof. repeat split; discriminate. Qed.

Lemma deletion_loop_app (a b : list str) : forall w,
  deletion_loop (a ++ b) w = deletion_loop b (snd (deletion_loop a w)).
Proof.
  unfold deletion_loop.
  induction a as [|p a IH]; intros w; simpl; [reflexivity|].
  unfold bind. rewrite delete_one_eq. apply IH.
Qed.

Lemma deletion_loop_cons (p : str) (post : list str) (w : world) :
  deletion_loop (p :: post) w = deletion_loop post (snd (delete_one p w)).
Proof.
  unfold deletion_loop. simpl. unfold bind. now rewrite delete_one_eq.
Qed.

(** ** Scenarios *)

(** The scenario of the specification: one file deleted, one missing, one
    refused; the run still ends with status 0. *)
Example scenario_mixed :
  let r := run demo_files demo_fs [py "DELETE"] in
  stdout (snd r) =
    listing demo_files ++
    [Line (py "Deleted: /tmp/a.txt");
     Line (py "Skipped (not found): /tmp/b.txt");
     Line (py "Failed to delete /tmp/c.txt: [Errno 13] Permission denied: '/tmp/c.txt'")]
  /\ exit_status (fst r) = 0%Z.
Proof. vm_compute. split; reflexivity. Qed.

(** A path listed twice is visited twice: deleted, then found missing. *)
Example scenario_duplicate :
  let r := run [py "/tmp/a.txt"; py "/tmp/a.txt"] demo_fs [py "DELETE"] in
  stdout (snd r) =
    listing [py "/tmp/a.txt"; py "/tmp/a.txt"] ++
    [Line (py "Deleted: /tmp/a.txt"); Line (py "Skipped (not found): /tmp/a.txt")]
  /\ calls (snd r) =
    [Exists (py "/tmp/a.txt"); Remove (py "/tmp/a.txt"); Exists (py "/tmp/a.txt")].
Proof. vm_compute. split; reflexivity. Qed.

(** The script's own list, on a filesystem that holds only the last path. *)
Example scenario_main :
  let readme := py "c:\Users\chrom\Videos\blueprint  stable\blueprint  stable complete back up\README.md" in
  let r := main (boot (<[readme := Removable]> ∅) [py "DELETE"]) in
  fst r = inl tt /\ fs (snd r) !! readme = None /\
  calls (snd r) = map Exists files_to_delete ++ [Remove readme].
Proof. vm_compute. repeat split; reflexivity. Qed.

(** The scenario of the empty list. *)
Example scenario_empty :
  run [] demo_fs [py "DELETE"] =
  (inl tt,
   World demo_fs []
     [Line (py "Files marked for deletion:");
      Prompt (py "Type DELETE to confirm deletion: ")] []).
Proof. reflexivity. Qed.

(** ** The claims *)

(** C1. When the line read at the prompt, stripped of surrounding
    whitespace, is not [DELETE], the run leaves the filesystem as it was
    (it makes no filesystem call at all), ends its output with the abort
    message and terminates through [exit(1)], with exit status 1. *)
Theorem mismatch_aborts_untouched
  (files : list str) (f : gmap (list N) node) (line : str) (rest : list str) :
  Str.strip line <> py "DELETE" ->
  fs (snd (run files f (line :: rest))) = f /\
  calls (snd (run files f (line :: rest))) = [] /\
  stdout (snd (run files f (line :: rest))) =
    listing files ++ [Line (py "Aborted by user.")] /\
  fst (run files f (line :: rest)) = inr (SystemExit 1) /\
  exit_status (fst (run files f (line :: rest))) = 1%Z.
Proof.
  intros H. rewrite (run_aborted files f line rest H). simpl. tauto.
Qed.

Lemma mismatch_aborts_untouched_witness :
  Str.strip (py "yes") <> py "DELETE" /\
  fs (snd (run demo_files demo_fs [py "yes"])) = demo_fs /\
  exit_status (fst (run demo_files demo_fs [py "yes"])) = 1%Z.
Proof.
  assert (H : Str.strip (py "yes") <> py "DELETE") by (vm_compute; discriminate).
  split; [exact H|].
  destruct (mismatch_aborts_untouched demo_files demo_fs (py "yes") [] H)
    as [Hfs [_ [_ [_ Hst]]]].
  split; [exact Hfs | exact Hst].
Defined.

(** C2. In a confirmed run every path of the list is visited exactly once,
    in the order of the list (a path listed twice is visited twice), and
    each visit has exactly one of the outcomes deleted, skipped or failed:
    the one dictated by what the filesystem holds at that path when its
    turn comes. The report lines and the filesystem calls of the run are
    those of these outcomes, and no other sequence of outcomes fits. *)
Theorem confirmed_visits_each_path_once
  (files : list str) (f : gmap (list N) node) (line : str) (rest : list str) :
  Str.strip line = py "DELETE" ->
  exists outs : list outcome,
    map target outs = files /\
    visits f files outs (fs (snd (run files f (line :: rest)))) /\
    stdout (snd (run files f (line :: rest))) =
      listing files ++ map (fun o => Line (report o)) outs /\
    calls (snd (run files f (line :: rest))) = flat_map syscalls outs /\
    (forall outs' f', visits f files outs' f' -> outs' = outs).
Proof.
  intros H. exists (outcomes files f).
  rewrite (run_confirmed files f line rest H). simpl.
  split; [apply outcomes_target|].
  split; [apply visits_outcomes|].
  split; [reflexivity|]. split; [reflexivity|].
  intros outs' f' Hv. now apply visits_functional in Hv.
Qed.

Lemma confirmed_visits_each_path_once_witness :
  exists outs : list outcome,
    map target outs = demo_files /\
    stdout (snd (run demo_files demo_fs [py " DELETE "])) =
      listing demo_files ++ map (fun o => Line (report o)) outs.
Proof.
  destruct (confirmed_visits_each_path_once demo_files demo_fs (py " DELETE ") [])
    as [outs [Ht [_ [Hout _]]]].
  - vm_compute. reflexivity.
  - exists outs. split; [exact Ht | exact Hout].
Defined.

(** C3. When the removal of a path fails, the loop catches the failure
    where it happens: it prints the line naming the path and the reason,
    has made one existence check and one removal attempt for that visit
    (no retry), leaves the filesystem as it was, and goes on with the rest
    of the list, which it processes exactly as the loop over that rest
    alone would. The loop as a whole returns normally. *)
Theorem failure_is_isolated
  (pre : list str) (p : str) (post : list str) (e : Exception) (w : world) :
  fs (snd (deletion_loop pre w)) !! p = Some (Refused e) ->
  deletion_loop (pre ++ p :: post) w =
    deletion_loop post
      (World (fs (snd (deletion_loop pre w)))
             (stdin (snd (deletion_loop pre w)))
             (stdout (snd (deletion_loop pre w)) ++
                [Line (py "Failed to delete " ++ p ++ py ": " ++ str_of e)])
             (calls (snd (deletion_loop pre w)) ++ [Exists p; Remove p])) /\
  fst (deletion_loop (pre ++ p :: post) w) = inl tt /\
  fs (snd (deletion_loop (pre ++ p :: post) w)) =
    fs (snd (deletion_loop (pre ++ post) w)).
Proof.
  intros H.
  assert (Hstep : deletion_loop (pre ++ p :: post) w =
                  deletion_loop post
                    (World (fs (snd (deletion_loop pre w)))
                       (stdin (snd (deletion_loop pre w)))
                       (stdout (snd (deletion_loop pre w)) ++
                        [Line (py "Failed to delete " ++ p ++ py ": " ++ str_of e)])
                       (calls (snd (deletion_loop pre w)) ++ [Exists p; Remove p]))).
  { rewrite deletion_loop_app, deletion_loop_cons, delete_one_eq.
    cbn [snd]. rewrite H. reflexivity. }
  split; [exact Hstep|]. split.
  - now rewrite deletion_loop_eq.
  - rewrite Hstep, (deletion_loop_app pre post), !(deletion_loop_eq post).
    reflexivity.
Qed.

Lemma failure_is_isolated_witness :
  fst (deletion_loop demo_files (boot demo_fs [])) = inl tt /\
  fs (snd (deletion_loop ([py "/tmp/c.txt"; py "/tmp/a.txt"]) (boot demo_fs []))) =
    fs (snd (deletion_loop [py "/tmp/a.txt"] (boot demo_fs []))).
Proof.
  split.
  - apply (failure_is_isolated [py "/tmp/a.txt"; py "/tmp/b.txt"]
             (py "/tmp/c.txt") [] demo_denied (boot demo_fs [])).
    vm_compute. reflexivity.
  - apply (failure_is_isolated [] (py "/tmp/c.txt") [py "/tmp/a.txt"]
             demo_denied (boot demo_fs [])).
    vm_compute. reflexivity.
Defined.

(** C7. When a path does not exist at its turn, the loop prints the
    skipped line naming it, makes no removal attempt, leaves the filesystem
    as it was and goes on with the rest of the list; the loop returns
    normally. *)
Theorem missing_path_is_skipped
  (pre : list str) (p : str) (post : list str) (w : world) :
  fs (snd (deletion_loop pre w)) !! p = None ->
  deletion_loop (pre ++ p :: post) w =
    deletion_loop post
      (World (fs (snd (deletion_loop pre w)))
             (stdin (snd (deletion_loop pre w)))
             (stdout (snd (deletion_loop pre w)) ++
                [Line (py "Skipped (not found): " ++ p)])
             (calls (snd (deletion_loop pre w)) ++ [Exists p])) /\
  fst (deletion_loop (pre ++ p :: post) w) = inl tt.
Proof.
  intros H. split.
  - rewrite deletion_loop_app, deletion_loop_cons, delete_one_eq.
    cbn [snd]. rewrite H. reflexivity.
  - now rewrite deletion_loop_eq.
Qed.

Lemma missing_path_is_skipped_witness :
  fst (deletion_loop demo_files (boot demo_fs [])) = inl tt.
Proof.
  apply (missing_path_is_skipped [py "/tmp/a.txt"] (py "/tmp/b.txt")
           [py "/tmp/c.txt"] (boot demo_fs [])).
  vm_compute. reflexivity.
Defined.

(** C4. Whatever is typed at the prompt, the filesystem after the run is
    the one before it with zero or more listed paths removed: nothing is
    created or changed, every path outside the list holds what it held,
    and every filesystem call the run made is an existence check or a
    removal of a listed path. *)
Theorem only_listed_paths_touched
  (files : list str) (f : gmap (list N) node) (i : list str) :
  fs (snd (run files f i)) ⊆ f /\
  (forall p : str, p ∉ files -> fs (snd (run files f i)) !! p = f !! p) /\
  (forall p : str, fs (snd (run files f i)) !! p = f !! p \/
                   (fs (snd (run files f i)) !! p = None /\ p ∈ files)) /\
  (forall c : fscall, c ∈ calls (snd (run files f i)) ->
     exists p : str, p ∈ files /\ (c = Exists p \/ c = Remove p)).
Proof.
  assert (Hsub : fs (snd (run files f i)) ⊆ f /\
                 (forall p : str, p ∉ files -> fs (snd (run files f i)) !! p = f !! p) /\
                 (forall c : fscall, c ∈ calls (snd (run files f i)) ->
                    exists p : str, p ∈ files /\ (c = Exists p \/ c = Remove p))).
  { destruct i as [|line rest].
    - rewrite run_eof. simpl. split; [reflexivity|]. split; [reflexivity|].
      now intros c Hc%elem_of_nil.
    - destruct (decide (Str.strip line = py "DELETE")) as [H|H].
      + rewrite (run_confirmed files f line rest H). simpl.
        split; [apply swept_subseteq|]. split.
        * intros p Hp. now apply swept_other.
        * intros c Hc. eapply calls_listed, Hc.
      + rewrite (run_aborted files f line rest H). simpl.
        split; [reflexivity|]. split; [reflexivity|].
        now intros c Hc%elem_of_nil. }
  destruct Hsub as [Hsub [Hother Hcalls]].
  split; [exact Hsub|]. split; [exact Hother|]. split; [|exact Hcalls].
  intros p. destruct (decide (p ∈ files)) as [Hp|Hp]; [|left; now apply Hother].
  destruct (fs (snd (run files f i)) !! p) as [n|] eqn:E.
  - left. symmetry. eapply lookup_weaken; [exact E | exact Hsub].
  - right. now split.
Qed.

(** C5. A confirmed run goes through the whole list (one report line per
    path) and runs to the end of the script, so its exit status is 0
    whatever the filesystem held; and over all inputs the status is 0
    only when a line was read and it stripped to [DELETE]. *)
Theorem confirmed_run_exits_zero
  (files : list str) (f : gmap (list N) node) (line : str) (rest : list str) :
  Str.strip line = py "DELETE" ->
  fst (run files f (line :: rest)) = inl tt /\
  exit_status (fst (run files f (line :: rest))) = 0%Z /\
  length (stdout (snd (run files f (line :: rest)))) =
    length (listing files) + length files /\
  (forall (f' : gmap (list N) node) (i : list str),
     exit_status (fst (run files f' i)) = 0%Z ->
     exists l r, i = l :: r /\ Str.strip l = py "DELETE").
Proof.
  intros H. rewrite (run_confirmed files f line rest H). simpl.
  split; [reflexivity|]. split; [reflexivity|]. split.
  - rewrite length_app, length_map, outcomes_length. reflexivity.
  - intros f' [|l r].
    + rewrite run_eof. discriminate.
    + destruct (decide (Str.strip l = py "DELETE")) as [Hl|Hl]; [eauto|].
      rewrite (run_aborted files f' l r Hl). discriminate.
Qed.

Lemma confirmed_run_exits_zero_witness :
  exit_status (fst (run demo_files demo_fs [py "DELETE"])) = 0%Z.
Proof.
  apply (confirmed_run_exits_zero demo_files demo_fs (py "DELETE") []).
  vm_compute. reflexivity.
Defined.

(** C6. The confirmation test passes exactly on the lines made of
    whitespace, the six characters [DELETE], and whitespace again; a run
    reaches the end of the script exactly when the stripped line equals
    [DELETE]. So a padded ["  DELETE  "] gives the very run that ["DELETE"]
    gives, while ["delete"] (and any partial or longer match) aborts. *)
Theorem confirmation_is_exact_trimmed_match :
  (forall line : str,
     str_ne (Str.strip line) (py "DELETE") = false <->
     exists l r : str, line = l ++ py "DELETE" ++ r /\ blank l /\ blank r) /\
  (forall (files : list str) (f : gmap (list N) node) (line : str) (rest : list str),
     fst (run files f (line :: rest)) = inl tt <-> Str.strip line = py "DELETE") /\
  (forall (files : list str) (f : gmap (list N) node) (rest : list str),
     run files f (py "  DELETE  " :: rest) = run files f (py "DELETE" :: rest)) /\
  (forall (files : list str) (f : gmap (list N) node) (rest : list str),
     run files f (py "delete" :: rest) =
     (inr (SystemExit 1),
      World f rest (listing files ++ [Line (py "Aborted by user.")]) [])) /\
  (forall (files : list str) (f : gmap (list N) node) (rest : list str),
     fst (run files f (py "DELETE ALL" :: rest)) = inr (SystemExit 1) /\
     fst (run files f (py "DELET" :: rest)) = inr (SystemExit 1)).
Proof.
  split; [|split; [|split; [|split]]].
  - intros line. rewrite str_ne_false. apply strip_DELETE_iff.
  - intros files f line rest. split.
    + intros H. destruct (decide (Str.strip line = py "DELETE")) as [Hl|Hl]; [exact Hl|].
      rewrite (run_aborted files f line rest Hl) in H. discriminate.
    + intros H. now rewrite (run_confirmed files f line rest H).
  - intros files f rest.
    rewrite !run_confirmed by reflexivity. reflexivity.
  - intros files f rest. apply run_aborted. vm_compute. discriminate.
  - intros files f rest.
    rewrite !run_aborted by (vm_compute; discriminate). now split.
Qed.

(** C8. The output of every run starts with the header line and one line
    per listed path, in order, followed by the prompt. After that a
    confirmed run writes exactly one line per listed path, in order, each of
    the form [Deleted: p], [Skipped (not found): p] or
    [Failed to delete p: reason]; an aborted run writes the single line
    [Aborted by user.]; a run that finds no input writes nothing. *)
Theorem stdout_structure
  (files : list str) (f : gmap (list N) node) (i : list str) :
  exists tail : list output,
    stdout (snd (run files f i)) =
      Line (py "Files marked for deletion:") :: map Line files ++
      Prompt (py "Type DELETE to confirm deletion: ") :: tail /\
    match i with
    | [] => tail = []
    | line :: _ =>
        (Str.strip line = py "DELETE" -> Forall2 report_form files tail) /\
        (Str.strip line <> py "DELETE" -> tail = [Line (py "Aborted by user.")])
    end.
Proof.
  destruct i as [|line rest].
  - exists []. rewrite run_eof. split; reflexivity.
  - destruct (decide (Str.strip line = py "DELETE")) as [H|H].
    + exists (map (fun o => Line (report o)) (outcomes files f)).
      rewrite (run_confirmed files f line rest H). unfold listing. simpl.
      rewrite <- app_assoc. split; [reflexivity|].
      split; [intros _; apply report_forms | intros H'; now destruct H'].
    + exists [Line (py "Aborted by user.")].
      rewrite (run_aborted files f line rest H). unfold listing. simpl.
      rewrite <- app_assoc. split; [reflexivity|].
      split; [intros H'; now destruct H | reflexivity].
Qed.

(** C9. Run the script twice, confirming both times, the second run
    starting on the filesystem the first one left. If the first run
    reported no failure, the second run reports every listed path as
    skipped (so in particular every path that existed before the first
    run), because none of them is there any more, and it changes nothing. *)
Theorem second_run_skips_everything
  (files : list str) (f : gmap (list N) node)
  (line1 : str) (rest1 : list str) (line2 : str) (rest2 : list str) :
  Str.strip line1 = py "DELETE" ->
  Str.strip line2 = py "DELETE" ->
  (forall p reason : str,
     Line (py "Failed to delete " ++ p ++ py ": " ++ reason)
     ∉ drop (length (listing files)) (stdout (snd (run files f (line1 :: rest1))))) ->
  (forall p : str, p ∈ files -> fs (snd (run files f (line1 :: rest1))) !! p = None) /\
  stdout (snd (run files (fs (snd (run files f (line1 :: rest1)))) (line2 :: rest2))) =
    listing files ++ map (fun p => Line (py "Skipped (not found): " ++ p)) files /\
  fs (snd (run files (fs (snd (run files f (line1 :: rest1)))) (line2 :: rest2))) =
    fs (snd (run files f (line1 :: rest1))).
Proof.
  intros H1 H2. rewrite (run_confirmed files f line1 rest1 H1). cbn [snd fs stdout].
  rewrite drop_app_length. intros Hno.
  assert (Hclear : forall p : str, p ∈ files -> swept files f !! p = None).
  { apply swept_clears. apply Forall_forall. intros o Ho reason Heq.
    apply (Hno (target o) reason). apply list_elem_of_In, in_map_iff.
    exists o. split; [now rewrite Heq | now apply list_elem_of_In]. }
  split; [exact Hclear|].
  rewrite (run_confirmed files (swept files f) line2 rest2 H2). cbn [snd fs stdout].
  destruct (outcomes_absent files (swept files f) Hclear) as [-> ->].
  rewrite map_map. split; reflexivity.
Qed.

Lemma second_run_skips_everything_witness :
  stdout (snd (run [py "/tmp/a.txt"; py "/tmp/b.txt"]
                 (fs (snd (run [py "/tmp/a.txt"; py "/tmp/b.txt"] demo_fs [py "DELETE"])))
                 [py "DELETE"])) =
  listing [py "/tmp/a.txt"; py "/tmp/b.txt"] ++
  [Line (py "Skipped (not found): /tmp/a.txt");
   Line (py "Skipped (not found): /tmp/b.txt")].
Proof.
  apply (second_run_skips_everything [py "/tmp/a.txt"; py "/tmp/b.txt"] demo_fs
           (py "DELETE") [] (py "DELETE") []).
  - vm_compute. reflexivity.
  - vm_compute. reflexivity.
  - intros p reason Hin. apply list_elem_of_In in Hin. vm_compute in Hin.
    destruct Hin as [Hin|[Hin|[]]]; discriminate Hin.
Defined.

(** C10. When standard input is exhausted at the prompt, [input] raises
    [EOFError] and nothing catches it: the run ends abnormally with status
    1, not through the abort branch; nothing is written after the prompt,
    so the script's own run shows no abort message; the filesystem is
    untouched and no filesystem call is made. *)
Theorem eof_at_prompt_is_uncaught (files : list str) (f : gmap (list N) node) :
  fst (run files f []) = inr (Exc EOFError) /\
  exit_status (fst (run files f [])) = 1%Z /\
  stdout (snd (run files f [])) =
    Line (py "Files marked for deletion:") :: map Line files ++
    [Prompt (py "Type DELETE to confirm deletion: ")] /\
  (Line (py "Aborted by user.") ∉ stdout (snd (main (boot f [])))) /\
  fs (snd (run files f [])) = f /\
  calls (snd (run files f [])) = [].
Proof.
  rewrite run_eof. cbn [fst snd fs stdout calls exit_status].
  split; [reflexivity|]. split; [reflexivity|]. split; [reflexivity|].
  split; [|split; reflexivity].
  change (main (boot f [])) with (run files_to_delete f []).
  rewrite run_eof. cbn [snd stdout].
  intros Hin. apply list_elem_of_In in Hin. vm_compute in Hin.
  repeat (destruct Hin as [Hin|Hin]; [discriminate Hin|]). exact Hin.
Qed.

(** ** Further properties of the deletion loop *)

(** What the loop leaves at a path: nothing where a listed path held a
    removable object, and what was there everywhere else. *)
Lemma swept_lookup (files : list str) : forall (f : gmap (list N) node) (p : str),
  swept files f !! p =
  match f !! p with
  | Some Removable => if bool_decide (p ∈ files) then None else Some Removable
  | other => other
  end.
Proof.
  induction files as [|q qs IH]; intros f p.
  - cbn [swept]. rewrite bool_decide_eq_false_2 by apply not_elem_of_nil.
    now destruct (f !! p) as [[|e]|].
  - cbn [swept]. rewrite IH. destruct (decide (p = q)) as [->|Hne].
    + rewrite (bool_decide_eq_true_2 (q ∈ q :: qs)) by left.
      destruct (f !! q) as [[|e]|] eqn:E; cbn [verdict effect]; [|now rewrite E..].
      now rewrite lookup_delete_eq.
    + rewrite effect_other by now rewrite target_verdict.
      rewrite (bool_decide_ext (p ∈ q :: qs) (p ∈ qs)); [reflexivity|].
      rewrite elem_of_cons. tauto.
Qed.



(** Where no listed path holds a removable object, the loop deletes
    nothing. *)
Lemma outcomes_settled (files : list str) (f : gmap (list N) node) :
  (forall p : str, p ∈ files -> f !! p <> Some Removable) ->
  swept files f = f /\
  Forall2 (fun p o => o = Skipped p \/ exists reason, o = Failed p reason)
          files (outcomes files f).
Proof.
  induction files as [|q qs IH]; intros H; simpl; [split; [reflexivity | constructor]|].
  assert (Hq : effect (verdict (f !! q) q) f = f).
  { destruct (f !! q) as [[|e]|] eqn:E; simpl; [|reflexivity..].
    exfalso. apply (H q); [left | exact E]. }
  rewrite Hq. destruct IH as [IH1 IH2]; [intros p Hp; apply H; now right|].
  split; [exact IH1|]. constructor; [|exact IH2].
  destruct (f !! q) as [[|e]|] eqn:E; simpl; eauto.
  exfalso. apply (H q); [left | exact E].
Qed.


(** ** Further properties of the script *)

(** X1. When a path holds a removable object at its turn, the loop checks
    it, removes it, prints the deleted line naming it and goes on with the
    rest of the list on the filesystem without that path. *)
Theorem existing_path_is_deleted
  (pre : list str) (p : str) (post : list str) (w : world) :
  fs (snd (deletion_loop pre w)) !! p = Some Removable ->
  deletion_loop (pre ++ p :: post) w =
    deletion_loop post
      (World (delete p (fs (snd (deletion_loop pre w))))
             (stdin (snd (deletion_loop pre w)))
             (stdout (snd (deletion_loop pre w)) ++ [Line (py "Deleted: " ++ p)])
             (calls (snd (deletion_loop pre w)) ++ [Exists p; Remove p])) /\
  fs (snd (deletion_loop (pre ++ p :: post) w)) !! p = None.
Proof.
  intros H.
  assert (Hstep : deletion_loop (pre ++ p :: post) w =
    deletion_loop post
      (World (delete p (fs (snd (deletion_loop pre w))))
             (stdin (snd (deletion_loop pre w)))
             (stdout (snd (deletion_loop pre w)) ++ [Line (py "Deleted: " ++ p)])
             (calls (snd (deletion_loop pre w)) ++ [Exists p; Remove p]))).
  { rewrite deletion_loop_app, deletion_loop_cons, delete_one_eq.
    cbn [snd]. rewrite H. reflexivity. }
  split; [exact Hstep|].
  rewrite Hstep, deletion_loop_eq. cbn [snd fs].
  eapply lookup_weaken_None; [apply lookup_delete_eq | apply swept_subseteq].
Qed.

Lemma existing_path_is_deleted_witness :
  fs (snd (deletion_loop demo_files (boot demo_fs []))) !! py "/tmp/a.txt" = None.
Proof.
  apply (existing_path_is_deleted [] (py "/tmp/a.txt")
           [py "/tmp/b.txt"; py "/tmp/c.txt"] (boot demo_fs [])).
  vm_compute. reflexivity.
Defined.

(** X2. After a confirmed run a path holds nothing if it is listed and held
    a removable object before the run; every other path, listed or not,
    holds exactly what it held before. *)
Theorem confirmed_run_final_filesystem
  (files : list str) (f : gmap (list N) node) (line : str) (rest : list str)
  (p : str) :
  Str.strip line = py "DELETE" ->
  fs (snd (run files f (line :: rest))) !! p =
  match f !! p with
  | Some Removable => if bool_decide (p ∈ files) then None else Some Removable
  | other => other
  end.
Proof.
  intros H. rewrite (run_confirmed files f line rest H). cbn [snd fs].
  apply swept_lookup.
Qed.

Lemma confirmed_run_final_filesystem_witness :
  fs (snd (run demo_files demo_fs [py "DELETE"])) !! py "/tmp/c.txt" =
  Some (Refused demo_denied).
Proof.
  rewrite (confirmed_run_final_filesystem demo_files demo_fs (py "DELETE") []
             (py "/tmp/c.txt")).
  - vm_compute. reflexivity.
  - vm_compute. reflexivity.
Defined.

(** X3. The order of the list does not matter for what is left: confirmed
    runs over two lists that are permutations of each other end on the same
    filesystem. *)
Theorem final_filesystem_ignores_order
  (files files' : list str) (f : gmap (list N) node)
  (line : str) (rest : list str) :
  Permutation files files' ->
  Str.strip line = py "DELETE" ->
  fs (snd (run files f (line :: rest))) = fs (snd (run files' f (line :: rest))).
Proof.
  intros Hperm H.
  rewrite (run_confirmed files f line rest H), (run_confirmed files' f line rest H).
  cbn [snd fs]. apply map_eq. intros p. rewrite !swept_lookup.
  rewrite (bool_decide_ext (p ∈ files) (p ∈ files')); [reflexivity|].
  now rewrite Hperm.
Qed.

Lemma final_filesystem_ignores_order_witness :
  fs (snd (run [py "/tmp/a.txt"; py "/tmp/c.txt"] demo_fs [py "DELETE"])) =
  fs (snd (run [py "/tmp/c.txt"; py "/tmp/a.txt"] demo_fs [py "DELETE"])).
Proof.
  apply final_filesystem_ignores_order.
  - apply perm_swap.
  - vm_compute. reflexivity.
Defined.

(** X4. A second confirmed run, started on the filesystem a first confirmed
    run left, deletes nothing: it leaves that filesystem as it is, and each
    of its report lines says skipped or failed, never deleted. *)
Theorem second_run_deletes_nothing
  (files : list str) (f : gmap (list N) node)
  (line1 : str) (rest1 : list str) (line2 : str) (rest2 : list str) :
  Str.strip line1 = py "DELETE" ->
  Str.strip line2 = py "DELETE" ->
  fs (snd (run files (fs (snd (run files f (line1 :: rest1)))) (line2 :: rest2))) =
    fs (snd (run files f (line1 :: rest1))) /\
  Forall2 (fun p o =>
             o = Line (py "Skipped (not found): " ++ p) \/
             exists reason, o = Line (py "Failed to delete " ++ p ++ py ": " ++ reason))
    files
    (drop (length (listing files))
       (stdout (snd (run files (fs (snd (run files f (line1 :: rest1))))
                         (line2 :: rest2))))).
Proof.
  intros H1 H2. rewrite (run_confirmed files f line1 rest1 H1). cbn [snd fs].
  rewrite (run_confirmed files (swept files f) line2 rest2 H2). cbn [snd fs stdout].
  rewrite drop_app_length.
  destruct (outcomes_settled files (swept files f)) as [Hfs Hout].
  { intros p Hp. rewrite swept_lookup, (bool_decide_eq_true_2 _ Hp).
    now destruct (f !! p) as [[|e]|]. }
  split; [exact Hfs|].
  clear Hfs. induction Hout as [|p o ps os Ho _ IH]; simpl; constructor; [|exact IH].
  destruct Ho as [->|[reason ->]]; simpl; eauto.
Qed.

Lemma second_run_deletes_nothing_witness :
  fs (snd (run demo_files (fs (snd (run demo_files demo_fs [py "DELETE"])))
             [py "DELETE"])) =
  fs (snd (run demo_files demo_fs [py "DELETE"])).
Proof.
  apply (second_run_deletes_nothing demo_files demo_fs (py "DELETE") []
           (py "DELETE") []).
  - vm_compute. reflexivity.
  - vm_compute. reflexivity.
Defined.



(** X6. The script reads exactly one line: whatever line it gets, and
    whether it then aborts or deletes, the lines after it are left unread
    on standard input. *)
Theorem exactly_one_line_is_read
  (files : list str) (f : gmap (list N) node) (line : str) (rest : list str) :
  stdin (snd (run files f (line :: rest))) = rest.
Proof.
  destruct (decide (Str.strip line = py "DELETE")) as [H|H].
  - now rewrite (run_confirmed files f line rest H).
  - now rewrite (run_aborted files f line rest H).
Qed.

(** X7. The typed line matters only through the confirmation test: two
    lines that both pass it, or both fail it, give the same result, the
    same output, the same filesystem and the same filesystem calls. *)
Theorem run_depends_only_on_the_test
  (files : list str) (f : gmap (list N) node) (line line' : str) (rest : list str) :
  (Str.strip line = py "DELETE" <-> Str.strip line' = py "DELETE") ->
  run files f (line :: rest) = run files f (line' :: rest).
Proof.
  intros Hiff. destruct (decide (Str.strip line = py "DELETE")) as [H|H].
  - rewrite (run_confirmed files f line rest H).
    now rewrite (run_confirmed files f line' rest (proj1 Hiff H)).
  - rewrite (run_aborted files f line rest H).
    rewrite (run_aborted files f line' rest); [reflexivity|].
    intros H'. apply H, Hiff, H'.
Qed.

Lemma run_depends_only_on_the_test_witness :
  run demo_files demo_fs [py "no"] = run demo_files demo_fs [py "DELETE it"].
Proof.
  apply run_depends_only_on_the_test.
  split; intros H; vm_compute in H; discriminate H.
Defined.

(** X8. An empty line, or a line made only of whitespace, does not
    confirm: the run aborts with status 1 and the filesystem is untouched. *)
Theorem blank_line_aborts
  (files : list str) (f : gmap (list N) node) (line : str) (rest : list str) :
  blank line ->
  run files f (line :: rest) =
  (inr (SystemExit 1),
   World f rest (listing files ++ [Line (py "Aborted by user.")]) []).
Proof.
  intros Hb. apply run_aborted.
  unfold Str.strip, Str.rstrip. rewrite (lstrip_all_blank line Hb). discriminate.
Qed.

Lemma blank_line_aborts_witness :
  fst (run demo_files demo_fs [[]]) = inr (SystemExit 1) /\
  fs (snd (run demo_files demo_fs [py "   "])) = demo_fs.
Proof.
  split.
  - rewrite (blank_line_aborts demo_files demo_fs [] []); [reflexivity|].
    constructor.
  - rewrite (blank_line_aborts demo_files demo_fs (py "   ") []); [reflexivity|].
    vm_compute. repeat constructor.
Defined.

(** X9. Every run ends in one of three ways: the script reaches its end,
    it leaves through [exit(1)], or, only when there is no input,
    [EOFError] escapes from [input]. No error of the filesystem ever
    escapes, and the exit status is 0 or 1. *)
Theorem run_ends_in_three_ways
  (files : list str) (f : gmap (list N) node) (i : list str) :
  (fst (run files f i) = inl tt \/
   fst (run files f i) = inr (SystemExit 1) \/
   (fst (run files f i) = inr (Exc EOFError) /\ i = [])) /\
  (forall msg : str, fst (run files f i) <> inr (Exc (OSError msg))) /\
  (exit_status (fst (run files f i)) = 0%Z \/
   exit_status (fst (run files f i)) = 1%Z).
Proof.
  destruct i as [|line rest].
  - rewrite run_eof. cbn [fst exit_status].
    split; [auto|]. split; [discriminate | now right].
  - destruct (decide (Str.strip line = py "DELETE")) as [H|H].
    + rewrite (run_confirmed files f line rest H). cbn [fst exit_status].
      split; [auto|]. split; [discriminate | now left].
    + rewrite (run_aborted files f line rest H). cbn [fst exit_status].
      split; [auto|]. split; [discriminate | now right].
Qed.


